(** * CP210x serial device: the device-node name suffix

    A shallow embedding of [getDeviceNameSuffix], of its caller [init] and
    of [free], from
    [CP210x/SerialDevice.cpp], together with the small parts of libc
    (C strings, [strnlen], [strcmp], [snprintf] with [%s] and [%x]) and of
    IOKit ([OSString], [OSNumber], [IOUSBDevice], [IOUSBInterface]) that the
    function relies on. *)

From Stdlib Require Import ZArith String Ascii List Bool Lia.
Import ListNotations.

Local Open Scope list_scope.
Local Open Scope string_scope.
Local Open Scope Z_scope.

(* ================================================================= *)
(** ** C strings and formatted output *)

Module Libc.

(** The terminating character of a C string. *)
Definition NUL : ascii := Ascii.zero.

(** A [char] array is a [string] holding all of its bytes; the C string it
    denotes is what precedes the first [NUL]. *)
Fixpoint cstr (buf : string) : string :=
  match buf with
  | EmptyString => EmptyString
  | String c rest =>
      if Ascii.eqb c NUL then EmptyString else String c (cstr rest)
  end.

Definition strlen (buf : string) : Z := Z.of_nat (String.length (cstr buf)).

(** [strnlen(s, maxlen)] *)
Definition strnlen (buf : string) (maxlen : Z) : Z :=
  Z.min (strlen buf) maxlen.

(** [strcmp(a, b)]: the sign of the comparison of the two C strings, byte
    by byte as unsigned characters. *)
Definition strcmp (a b : string) : Z :=
  match String.compare (cstr a) (cstr b) with
  | Eq => 0
  | Lt => -1
  | Gt => 1
  end.

(** The first [n] characters of [s]. *)
Fixpoint truncate (n : nat) (s : string) : string :=
  match n, s with
  | O, _ => EmptyString
  | S _, EmptyString => EmptyString
  | S n', String c rest => String c (truncate n' rest)
  end.

(** [snprintf(buf, size, ...)] leaves in [buf] at most [size - 1] characters
    of the formatted output (and the terminator). [formatted] is the whole
    output the directives produce. *)
Definition snprintf (size : Z) (formatted : string) : string :=
  truncate (Z.to_nat (size - 1)) formatted.

(** The [%s] directive. *)
Definition fmt_s (arg : string) : string := cstr arg.

(** One lowercase hexadecimal digit, for [0 <= d < 16]. *)
Definition hex_digit (d : Z) : ascii :=
  if d <? 10 then ascii_of_N (Z.to_N (48 + d)) else ascii_of_N (Z.to_N (87 + d)).

(** The digit loop of [%x]: the least significant digit is produced first
    and goes in front of what is already there; the loop stops when the
    remaining quotient is zero. [fuel] bounds the number of further
    digits. *)
Fixpoint hex_loop (fuel : nat) (v : Z) (acc : string) : string :=
  let acc' := String (hex_digit (v mod 16)) acc in
  match fuel with
  | O => acc'
  | S fuel' => if v / 16 =? 0 then acc' else hex_loop fuel' (v / 16) acc'
  end.

(** The [%x] directive: its argument is read as an [unsigned int] (32 bits),
    which has at most eight hexadecimal digits; no padding, no prefix. *)
Definition fmt_x (arg : Z) : string := hex_loop 7 (arg mod 2 ^ 32) "".

(** The value of a hexadecimal digit character (lowercase letters). *)
Definition hex_val (c : ascii) : Z :=
  let n := Z.of_N (N_of_ascii c) in
  if n <? 58 then n - 48 else n - 87.

(** Reading a string of hexadecimal digits back, most significant first. *)
Fixpoint of_hex_from (acc : Z) (s : string) : Z :=
  match s with
  | EmptyString => acc
  | String c rest => of_hex_from (16 * acc + hex_val c) rest
  end.

Definition of_hex (s : string) : Z := of_hex_from 0 s.

(** No character of [s] is the terminator. *)
Fixpoint no_nul (s : string) : bool :=
  match s with
  | EmptyString => true
  | String c rest => negb (Ascii.eqb c NUL) && no_nul rest
  end.

(** The C library's whitespace class ([isspace] in the C locale). *)
Definition isspace (c : ascii) : bool :=
  let n := N_of_ascii c in
  (N.eqb n 32 || (N.leb 9 n && N.leb n 13))%N.

End Libc.

(* ================================================================= *)
(** ** The IOKit objects the function touches *)

Module IOKit.
Import Libc.

Definition IOReturn := Z.
Definition kIOReturnSuccess : IOReturn := 0.

(** [OSString]: an immutable string object. *)
Definition OSString := string.

(** [OSString::withCString] copies the C string found in the buffer. *)
Definition withCString (buf : string) : OSString := cstr buf.
Definition getLength (s : OSString) : Z := Z.of_nat (String.length s).
Definition getCStringNoCopy (s : OSString) : string := s.

(** [OSNumber]: a number object of up to 64 bits. *)
Record OSNumber := mkOSNumber { number_value : Z }.

Definition unsigned32BitValue (n : OSNumber) : Z := number_value n mod 2 ^ 32.

(** What a registry property can hold. *)
Inductive OSObject :=
| ONumber (n : OSNumber)
| OString (s : OSString)
| OOther.

(** [OSDynamicCast(OSNumber, obj)]: the object when it is a number, [NULL]
    (here [None]) when it is absent or of another class. *)
Definition OSDynamicCast_OSNumber (obj : option OSObject) : option OSNumber :=
  match obj with
  | Some (ONumber n) => Some n
  | _ => None
  end.

(** The facts of a USB device that the driver reads. [GetStringDescriptor]
    gives, for a string index, the return code and the bytes left in the
    caller's buffer; [LocationID] is [getProperty(kUSBDevicePropertyLocationID)]. *)
Record IOUSBDevice := mkDevice {
  GetProductID : Z;
  GetVendorID : Z;
  GetSerialNumberStringIndex : Z;
  GetStringDescriptor : Z -> IOReturn * string;
  LocationID : option OSObject
}.

Record IOUSBInterface := mkInterface {
  GetDevice : IOUSBDevice;
  GetInterfaceNumber : Z
}.

(** The range of the C type [UInt8]. *)
Definition is_uint8 (v : Z) : Prop := 0 <= v < 256.

End IOKit.

Import Libc IOKit.

(** An entry of the table of default vendor and product identifiers. *)
Record usb_id := mk_usb_id { vendor : Z; product : Z }.

(** A call of [getDeviceNameSuffix] gives the suffix and the lines it sent to
    the error log. *)
Record outcome := mkOutcome { suffix : OSString; logged : list string }.

(** The two keys of [IOSerialKeys.h] that [init] sets on the stream. *)
Inductive property_key := kIOTTYBaseNameKey | kIOTTYSuffixKey.

(** The calls [init] and [free] make on the objects around them, in the
    order they are made. The stream is known by its address [s]; the
    provider is an address too. Of what [getDeviceNameSuffix] does, its
    error log line and its release of a string are calls of this list; its
    reads of the device and the creation of strings are not. *)
Inductive call :=
| super_init
| new_stream
| stream_init (s : Z) (a b : Z)
| stream_attach (s : Z) (provider : Z)
| stream_setProperty (s : Z) (key : property_key) (value : OSString)
| stream_registerService (s : Z)
| stream_release (s : Z)
| string_release (str : OSString)
| log_err (msg : string)
| super_free.

(** What the calls of [init] that can fail answer: [super::init()],
    [new IORS232SerialStreamSync()] (an address, or [None] for [NULL]),
    [_stream->init(0, 0)] and [_stream->attach(provider)]. *)
Record answers := mkAnswers {
  super_init_ok : bool;
  new_stream_result : option Z;
  stream_init_ok : bool;
  stream_attach_ok : bool
}.

(** The object of class [coop_plausible_CP210x_SerialDevice]: its field
    [_stream], [None] for [NULL]. *)
Record SerialDeviceObject := mkObject { _stream : option Z }.

(** What a call of [init] leaves: the value returned, the object and the
    calls made. *)
Record init_result := mkInitResult {
  returned : bool;
  object : SerialDeviceObject;
  calls : list call
}.

(* ================================================================= *)
(** ** getDeviceNameSuffix *)

Module SerialDevice.
Section Definitions.

(** The table of default identifiers (an array and its count, here a list)
    and the default serial number are declared in [usbdevs.h]; the function
    is studied for any table and any serial constant. *)
Variable coop_plausible_driver_CP210x_default_ids : list usb_id.
Variable SILABS_DEFAULT_EEPROM_SERIAL : string.

(** The loop over the table: an entry whose vendor or product differs is
    passed over, the first entry that matches both ends the loop. *)
Fixpoint scan_default_ids (ids : list usb_id) (vendorId prodId : Z) : bool :=
  match ids with
  | [] => false
  | e :: rest =>
      if negb (vendorId =? vendor e) then scan_default_ids rest vendorId prodId
      else if negb (prodId =? product e) then scan_default_ids rest vendorId prodId
      else true
  end.

Definition defaultEEPROMID (device : IOUSBDevice) : bool :=
  scan_default_ids coop_plausible_driver_CP210x_default_ids
    (GetVendorID device) (GetProductID device).

(** First attempt: the serial number of the device. *)
Definition serial_tier (device : IOUSBDevice) : option OSString :=
  let idx := GetSerialNumberStringIndex device in
  if negb (idx =? 0) then
    let '(ret, serialStr) := GetStringDescriptor device idx in
    if (ret =? kIOReturnSuccess) && (strnlen serialStr 256 >? 0) then
      if negb (defaultEEPROMID device)
         || negb (strcmp serialStr SILABS_DEFAULT_EEPROM_SERIAL =? 0)
      then Some (withCString serialStr)
      else None
    else None
  else None.

(** Second attempt: the location of the device in the USB topology. *)
Definition location_tier (device : IOUSBDevice) : option OSString :=
  match OSDynamicCast_OSNumber (LocationID device) with
  | Some location =>
      let locStr := snprintf 9 (fmt_x (unsigned32BitValue location)) in
      Some (withCString locStr)
  | None => None
  end.

(** The value of [result] when the two attempts are over. *)
Definition candidate (device : IOUSBDevice) : option OSString :=
  match serial_tier device with
  | Some result => Some result
  | None => location_tier device
  end.

Definition no_id_message : string :=
  "Failed to locate a valid serial number or USB location to use for device node naming".

(** The last block: the interface number is appended to [result]. *)
Definition make_unique (result : OSString) (interfaceNumber : Z) : OSString :=
  let size := getLength result + 3 + 1 in
  let uniqueStr :=
    snprintf size (fmt_s (getCStringNoCopy result) ++ fmt_x interfaceNumber) in
  withCString uniqueStr.

Definition getDeviceNameSuffix_run (interface : IOUSBInterface) : outcome :=
  let device := GetDevice interface in
  match candidate device with
  | None => mkOutcome (withCString "unknown") [no_id_message]
  | Some result =>
      mkOutcome (make_unique result (GetInterfaceNumber interface)) []
  end.

Definition getDeviceNameSuffix (interface : IOUSBInterface) : OSString :=
  suffix (getDeviceNameSuffix_run interface).

(** [setProperty] with a C string for value: the property holds a copy of
    the string. *)
Definition setProperty (s : Z) (key : property_key) (buf : string) : call :=
  stream_setProperty s key (withCString buf).

(** The code at the label [finish] of [init], reached with [_stream] at [s]:
    on failure the stream is released and the field set to [NULL]. *)
Definition finish (result : bool) (s : Z) (made : list call) : init_result :=
  if negb result
  then mkInitResult result (mkObject None) (made ++ [stream_release s])%list
  else mkInitResult result (mkObject (Some s)) made.

(** The calls [getDeviceNameSuffix] makes: when no string was selected, the
    error line, logged before the early return; otherwise the release of the
    selected string [result], once its characters are copied into
    [uniqueStr] and before the string returned is created. *)
Definition getDeviceNameSuffix_calls (interface : IOUSBInterface) : list call :=
  match candidate (GetDevice interface) with
  | None => [log_err no_id_message]
  | Some result => [string_release result]
  end.

(** The block of [init] that names the device node: the calls it makes, in
    order, those of [getDeviceNameSuffix] first. As in
    [getDeviceNameSuffix], the creation of an [OSString] is taken to
    succeed. *)
Definition configure_name (s : Z) (interface : IOUSBInterface) : list call :=
  let suffix := getDeviceNameSuffix interface in
  let dashSuffix :=
    snprintf (getLength suffix + 1 + 1) ("-" ++ fmt_s (getCStringNoCopy suffix)) in
  (getDeviceNameSuffix_calls interface
   ++ [setProperty s kIOTTYBaseNameKey "CP210x";
       setProperty s kIOTTYSuffixKey dashSuffix;
       string_release suffix])%list.

Definition init (env : answers) (this : SerialDeviceObject)
    (provider : Z) (interface : IOUSBInterface) : init_result :=
  if negb (super_init_ok env) then mkInitResult false this [super_init]
  else
    match new_stream_result env with
    | None => mkInitResult false (mkObject None) [super_init; new_stream]
    | Some s =>
        let made := [super_init; new_stream; stream_init s 0 0] in
        let result := stream_init_ok env in
        if negb result then finish result s made
        else
          let made := (made ++ [stream_attach s provider])%list in
          let result := stream_attach_ok env in
          if negb result then finish result s made
          else
            let made := (made ++ configure_name s interface)%list in
            let made := (made ++ [stream_registerService s])%list in
            finish result s made
    end.

Definition free (this : SerialDeviceObject) : list call :=
  match _stream this with
  | Some s => [stream_release s; super_free]
  | None => [super_free]
  end.

End Definitions.
End SerialDevice.

(* ================================================================= *)
(** ** Concrete tables and devices *)

(** Modelled from the spec: the table [coop_plausible_driver_CP210x_default_ids]
    of [usbdevs.h] is not part of the sources at hand; the spec names the
    pair vendor 0x10C4, product 0xEA60 as one of its entries. *)
Definition spec_default_ids : list usb_id := [mk_usb_id 0x10C4 0xEA60].

(** Modelled from the spec: the constant [SILABS_DEFAULT_EEPROM_SERIAL] of
    [usbdevs.h]; the spec, like the comment above the function, gives the
    factory default serial number as 0001. *)
Definition spec_default_serial : string := "0001".

(** IOKit's general error code. *)
Definition kIOReturnError : IOReturn := 0xe00002bc.

(** A buffer of a few bytes holding [s], its terminator and leftover bytes. *)
Definition buffer_with (s : string) : string :=
  s ++ String NUL "??".

Definition fetch_fails (_ : Z) : IOReturn * string := (kIOReturnError, "").
Definition fetch_gives (s : string) (_ : Z) : IOReturn * string :=
  (kIOReturnSuccess, buffer_with s).

(** An unprogrammed part: default identifiers, default serial number. *)
Definition dev_unprogrammed : IOUSBDevice :=
  mkDevice 0xEA60 0x10C4 3 (fetch_gives "0001")
           (Some (ONumber (mkOSNumber 0x1A200000))).

(** A part with a serial number of its own. *)
Definition dev_programmed : IOUSBDevice :=
  mkDevice 0x6001 0x0403 3 (fetch_gives "A1B2C3")
           (Some (ONumber (mkOSNumber 0x14100000))).

(** A part with neither a serial number nor a location. *)
Definition dev_bare : IOUSBDevice :=
  mkDevice 0xEA60 0x10C4 0 fetch_fails None.

(** A part whose serial number is a single space. *)
Definition dev_blank : IOUSBDevice :=
  mkDevice 0x6001 0x0403 3 (fetch_gives " ")
           (Some (ONumber (mkOSNumber 0x14100000))).

(** A part whose serial number cannot be read. *)
Definition dev_unreadable : IOUSBDevice :=
  mkDevice 0x6001 0x0403 3 fetch_fails
           (Some (ONumber (mkOSNumber 0x14100000))).

(** A part whose serial number descriptor holds an empty string. *)
Definition dev_empty_serial : IOUSBDevice :=
  mkDevice 0x6001 0x0403 3 (fetch_gives "")
           (Some (ONumber (mkOSNumber 0x14100000))).

(** [dev_programmed] seen through a reader that fails on every string index
    but that of the serial number. *)
Definition dev_programmed_alt : IOUSBDevice :=
  mkDevice 0x6001 0x0403 3
           (fun idx => if idx =? 3 then fetch_gives "A1B2C3" idx else fetch_fails idx)
           (Some (ONumber (mkOSNumber 0x14100000))).

(** The same device with another value of the location property. *)
Definition with_location (device : IOUSBDevice) (loc : option OSObject) : IOUSBDevice :=
  mkDevice (GetProductID device) (GetVendorID device)
           (GetSerialNumberStringIndex device) (GetStringDescriptor device) loc.

(** Following the spec's words: a string is empty after trimming when
    nothing is left once its leading whitespace is removed. *)
Fixpoint spec_trim_left (s : string) : string :=
  match s with
  | EmptyString => EmptyString
  | String c rest => if isspace c then spec_trim_left rest else s
  end.

Definition spec_empty_after_trimming (s : string) : bool :=
  String.eqb (spec_trim_left s) "".

(** *** Reading a list of calls *)

Definition is_release (s : Z) (c : call) : bool :=
  match c with
  | stream_release s' => s' =? s
  | _ => false
  end.

(** The number of times the stream at [s] is released. *)
Definition release_count (s : Z) (l : list call) : nat :=
  List.length (filter (is_release s) l).

(** A call made on the stream at [s]. *)
Definition uses_stream (s : Z) (c : call) : bool :=
  match c with
  | stream_init s' _ _ | stream_attach s' _ | stream_setProperty s' _ _
  | stream_registerService s' | stream_release s' => s' =? s
  | _ => false
  end.

(** No call is made on the stream at [s] once it has been released. *)
Fixpoint no_use_after_release (s : Z) (l : list call) : bool :=
  match l with
  | [] => true
  | c :: rest =>
      (if is_release s c then negb (existsb (uses_stream s) rest) else true)
      && no_use_after_release s rest
  end.

(** A call that names or publishes the stream, or logs an error. *)
Definition names_or_publishes (c : call) : bool :=
  match c with
  | stream_setProperty _ _ _ | stream_registerService _ | log_err _
  | string_release _ => true
  | _ => false
  end.

(** A lowercase hexadecimal digit character. *)
Definition is_hex_digit (c : ascii) : bool :=
  let n := N_of_ascii c in
  ((N.leb 48 n && N.leb n 57) || (N.leb 97 n && N.leb n 102))%N.

Fixpoint all_hex_digits (s : string) : bool :=
  match s with
  | EmptyString => true
  | String c rest => is_hex_digit c && all_hex_digits rest
  end.

(** Every call of [init] that can fail succeeds; the stream is at [s]. *)
Definition all_succeed (s : Z) : answers := mkAnswers true (Some s) true true.

(** The attachment to the provider fails. *)
Definition attach_fails (s : Z) : answers := mkAnswers true (Some s) true false.

(** A new object: its field is [NULL]. *)
Definition fresh_object : SerialDeviceObject := mkObject None.

(** Two parts at the locations 0x1a1 and 0x1a, without serial number. *)
Definition dev_at_1a1 : IOUSBDevice :=
  mkDevice 0xEA60 0x10C4 0 fetch_fails (Some (ONumber (mkOSNumber 0x1a1))).
Definition dev_at_1a : IOUSBDevice :=
  mkDevice 0xEA60 0x10C4 0 fetch_fails (Some (ONumber (mkOSNumber 0x1a))).

(* ================================================================= *)
(** ** Facts about C strings and formatting *)

Module LibcFacts.

Lemma length_append (a b : string) :
  String.length (a ++ b) = (String.length a + String.length b)%nat.
Proof. induction a as [|c a IH]; simpl; [reflexivity | now rewrite IH]. Qed.

Lemma append_inv_head (a b c : string) : a ++ b = a ++ c -> b = c.
Proof.
  induction a as [|x a IH]; simpl; intros H; [exact H|].
  injection H as H. now apply IH.
Qed.

Lemma append_assoc (a b c : string) : (a ++ b) ++ c = a ++ (b ++ c).
Proof. induction a as [|x a IH]; simpl; [reflexivity | now rewrite IH]. Qed.

Lemma cstr_no_nul (s : string) : no_nul (cstr s) = true.
Proof.
  induction s as [|c s IH]; simpl; [reflexivity|].
  destruct (Ascii.eqb c NUL) eqn:E; simpl; [reflexivity|].
  now rewrite E, IH.
Qed.

Lemma cstr_id (s : string) : no_nul s = true -> cstr s = s.
Proof.
  induction s as [|c s IH]; simpl; [reflexivity|].
  intros H. apply andb_prop in H as [Hc Hs].
  apply negb_true_iff in Hc. rewrite Hc. now rewrite IH.
Qed.

Lemma cstr_app (a b : string) : no_nul a = true -> cstr (a ++ b) = a ++ cstr b.
Proof.
  induction a as [|c a IH]; simpl; [reflexivity|].
  intros H. apply andb_prop in H as [Hc Ha].
  apply negb_true_iff in Hc. rewrite Hc. now rewrite IH.
Qed.

Lemma truncate_app (a b : string) (n : nat) :
  truncate (String.length a + n) (a ++ b) = a ++ truncate n b.
Proof. induction a as [|c a IH]; simpl; [reflexivity | now rewrite IH]. Qed.

Lemma truncate_all (s : string) (n : nat) :
  (String.length s <= n)%nat -> truncate n s = s.
Proof.
  revert n. induction s as [|c s IH]; intros [|n] H; simpl in *;
    try reflexivity; try lia.
  rewrite IH; [reflexivity | lia].
Qed.

Lemma string_compare_refl (s : string) : String.compare s s = Eq.
Proof.
  induction s as [|c s IH]; simpl; [reflexivity|].
  unfold Ascii.compare. now rewrite N.compare_refl.
Qed.

Lemma strcmp_zero (a b : string) : (strcmp a b =? 0) = true <-> cstr a = cstr b.
Proof.
  unfold strcmp. split.
  - intros H. apply String.compare_eq_iff.
    destruct (String.compare (cstr a) (cstr b));
      [reflexivity | cbv in H; discriminate H | cbv in H; discriminate H].
  - intros ->. now rewrite string_compare_refl.
Qed.

Lemma strnlen_positive (s : string) (n : Z) :
  0 < n -> (strnlen s n >? 0) = true <-> cstr s <> "".
Proof.
  intros Hn. unfold strnlen, strlen. rewrite Z.gtb_ltb, Z.ltb_lt.
  destruct (cstr s); simpl String.length; split; intros H; try congruence; lia.
Qed.

(** *** Hexadecimal digits *)

Lemma hex_digit_val (d : Z) : 0 <= d < 16 -> hex_val (hex_digit d) = d.
Proof.
  intros Hd. unfold hex_val, hex_digit.
  destruct (d <? 10) eqn:E.
  - apply Z.ltb_lt in E.
    rewrite N_ascii_embedding by lia. rewrite Z2N.id by lia.
    destruct (48 + d <? 58) eqn:E'; [lia|]. apply Z.ltb_ge in E'. lia.
  - apply Z.ltb_ge in E.
    rewrite N_ascii_embedding by lia. rewrite Z2N.id by lia.
    destruct (87 + d <? 58) eqn:E'; [|lia]. apply Z.ltb_lt in E'. lia.
Qed.

Lemma hex_digit_not_nul (d : Z) :
  0 <= d < 16 -> Ascii.eqb (hex_digit d) NUL = false.
Proof.
  intros Hd. apply Ascii.eqb_neq. intros H.
  apply (f_equal N_of_ascii) in H. unfold hex_digit in H.
  change (N_of_ascii NUL) with 0%N in H.
  destruct (d <? 10); rewrite N_ascii_embedding in H by lia; lia.
Qed.

Lemma hex_loop_acc (fuel : nat) : forall v acc,
  hex_loop fuel v acc = hex_loop fuel v "" ++ acc.
Proof.
  induction fuel as [|fuel IH]; intros v acc; simpl; [reflexivity|].
  destruct (v / 16 =? 0); [reflexivity|].
  rewrite (IH _ (String _ acc)), (IH _ (String _ "")).
  now rewrite append_assoc.
Qed.

Lemma of_hex_from_app (s t : string) : forall a,
  of_hex_from a (s ++ t) = of_hex_from (of_hex_from a s) t.
Proof. induction s as [|c s IH]; intros a; simpl; [reflexivity | apply IH]. Qed.

Lemma of_hex_one_digit (a v : Z) :
  of_hex_from a (String (hex_digit (v mod 16)) "") = 16 * a + v mod 16.
Proof.
  simpl. rewrite hex_digit_val; [reflexivity|].
  apply Z.mod_pos_bound. lia.
Qed.

(** With enough fuel for the size of [v], reading the digits back gives
    [v]: no digit is lost. *)
Lemma of_hex_hex_loop (fuel : nat) : forall v,
  0 <= v < 16 ^ Z.of_nat (S fuel) -> of_hex (hex_loop fuel v "") = v.
Proof.
  unfold of_hex.
  induction fuel as [|fuel IH]; intros v Hv.
  - cbn [hex_loop]. rewrite of_hex_one_digit.
    change (16 ^ Z.of_nat 1) with 16 in Hv.
    rewrite Z.mod_small; lia.
  - cbn [hex_loop]. rewrite Nat2Z.inj_succ, Z.pow_succ_r in Hv by lia.
    destruct (v / 16 =? 0) eqn:E.
    + apply Z.eqb_eq in E. rewrite of_hex_one_digit.
      pose proof (Z.div_mod v 16). lia.
    + rewrite hex_loop_acc, of_hex_from_app, IH.
      * rewrite of_hex_one_digit. pose proof (Z.div_mod v 16). lia.
      * split; [apply Z.div_pos; lia|].
        apply Z.div_lt_upper_bound; lia.
Qed.

Lemma of_hex_fmt_x (v : Z) : of_hex (fmt_x v) = v mod 2 ^ 32.
Proof.
  unfold fmt_x. apply of_hex_hex_loop.
  change (16 ^ Z.of_nat 8) with (2 ^ 32).
  apply Z.mod_pos_bound. lia.
Qed.

Lemma fmt_x_inj (a b : Z) : fmt_x a = fmt_x b -> a mod 2 ^ 32 = b mod 2 ^ 32.
Proof. intros H. rewrite <- !of_hex_fmt_x. now rewrite H. Qed.

Lemma fmt_x_inj_uint32 (a b : Z) :
  0 <= a < 2 ^ 32 -> 0 <= b < 2 ^ 32 -> fmt_x a = fmt_x b -> a = b.
Proof.
  intros Ha Hb H. apply fmt_x_inj in H.
  now rewrite !Z.mod_small in H by assumption.
Qed.

Lemma hex_loop_length_le (fuel : nat) : forall v acc,
  (String.length (hex_loop fuel v acc) <= S fuel + String.length acc)%nat.
Proof.
  induction fuel as [|fuel IH]; intros v acc; cbn [hex_loop].
  - simpl. lia.
  - destruct (v / 16 =? 0); [simpl; lia|].
    specialize (IH (v / 16) (String (hex_digit (v mod 16)) acc)).
    simpl in *. lia.
Qed.

Lemma hex_loop_length_ge (fuel : nat) : forall v acc,
  (1 + String.length acc <= String.length (hex_loop fuel v acc))%nat.
Proof.
  induction fuel as [|fuel IH]; intros v acc; cbn [hex_loop].
  - simpl. lia.
  - destruct (v / 16 =? 0); [simpl; lia|].
    specialize (IH (v / 16) (String (hex_digit (v mod 16)) acc)).
    simpl in *. lia.
Qed.

(** A value below [16 ^ (k + 1)] is written with at most [k + 1] digits,
    whatever the fuel. *)
Lemma hex_loop_length_small (fuel : nat) : forall k v acc,
  0 <= v < 16 ^ Z.of_nat (S k) ->
  (String.length (hex_loop fuel v acc) <= S k + String.length acc)%nat.
Proof.
  induction fuel as [|fuel IH]; intros k v acc Hv; cbn [hex_loop].
  - simpl. lia.
  - destruct (v / 16 =? 0) eqn:E; [simpl; lia|].
    apply Z.eqb_neq in E.
    destruct k as [|k].
    + change (16 ^ Z.of_nat 1) with 16 in Hv.
      rewrite Z.div_small in E by lia. contradiction.
    + rewrite Nat2Z.inj_succ, Z.pow_succ_r in Hv by lia.
      assert (Hq : 0 <= v / 16 < 16 ^ Z.of_nat (S k)).
      { split; [apply Z.div_pos; lia|]. apply Z.div_lt_upper_bound; lia. }
      specialize (IH k (v / 16) (String (hex_digit (v mod 16)) acc) Hq).
      simpl in *. lia.
Qed.

Lemma hex_loop_no_nul (fuel : nat) : forall v acc,
  no_nul acc = true -> no_nul (hex_loop fuel v acc) = true.
Proof.
  assert (Hd : forall v acc, no_nul acc = true ->
                 no_nul (String (hex_digit (v mod 16)) acc) = true).
  { intros v acc H. simpl. rewrite hex_digit_not_nul, H; [reflexivity|].
    apply Z.mod_pos_bound. lia. }
  induction fuel as [|fuel IH]; intros v acc H; cbn [hex_loop].
  - now apply Hd.
  - destruct (v / 16 =? 0); [now apply Hd|]. apply IH. now apply Hd.
Qed.

Lemma fmt_x_no_nul (v : Z) : no_nul (fmt_x v) = true.
Proof. unfold fmt_x. now apply hex_loop_no_nul. Qed.

Lemma fmt_x_length_le (v : Z) : (String.length (fmt_x v) <= 8)%nat.
Proof. unfold fmt_x. pose proof (hex_loop_length_le 7 (v mod 2 ^ 32) ""). simpl in *. lia. Qed.

Lemma fmt_x_length_ge (v : Z) : (1 <= String.length (fmt_x v))%nat.
Proof. unfold fmt_x. pose proof (hex_loop_length_ge 7 (v mod 2 ^ 32) ""). simpl in *. lia. Qed.

Lemma fmt_x_length_uint8 (v : Z) :
  is_uint8 v -> (String.length (fmt_x v) <= 2)%nat.
Proof.
  intros Hv. unfold is_uint8 in Hv. unfold fmt_x.
  rewrite Z.mod_small by lia.
  pose proof (hex_loop_length_small 7 1 v "") as H.
  change (16 ^ Z.of_nat 2) with 256 in H. specialize (H Hv).
  simpl in *. lia.
Qed.

End LibcFacts.

(* ================================================================= *)
(** ** Facts about getDeviceNameSuffix *)

Section SerialDeviceFacts.
Import LibcFacts.

Variable ids : list usb_id.
Variable default_serial : string.

Local Abbreviation defaultEEPROMID := (SerialDevice.defaultEEPROMID ids).
Local Abbreviation serial_tier := (SerialDevice.serial_tier ids default_serial).
Local Abbreviation candidate := (SerialDevice.candidate ids default_serial).
Local Abbreviation getDeviceNameSuffix_run :=
  (SerialDevice.getDeviceNameSuffix_run ids default_serial).
Local Abbreviation getDeviceNameSuffix :=
  (SerialDevice.getDeviceNameSuffix ids default_serial).
Local Abbreviation scan_default_ids := SerialDevice.scan_default_ids.
Local Abbreviation location_tier := SerialDevice.location_tier.
Local Abbreviation make_unique := SerialDevice.make_unique.
Local Abbreviation no_id_message := SerialDevice.no_id_message.

(** *** The table scan *)

Lemma scan_default_ids_In (l : list usb_id) (v p : Z) :
  scan_default_ids l v p = true <-> In (mk_usb_id v p) l.
Proof.
  induction l as [|[ev ep] l IH]; simpl.
  - split; [discriminate | contradiction].
  - destruct (v =? ev) eqn:Ev; simpl.
    + destruct (p =? ep) eqn:Ep; simpl.
      * apply Z.eqb_eq in Ev, Ep. subst. split; [now left | reflexivity].
      * apply Z.eqb_neq in Ep. rewrite IH. split; [now right|].
        intros [H|H]; [congruence | exact H].
    + apply Z.eqb_neq in Ev. rewrite IH. split; [now right|].
      intros [H|H]; [congruence | exact H].
Qed.

(** *** The serial number attempt *)

Lemma serial_tier_accepts (device : IOUSBDevice) (buf : string) :
  GetSerialNumberStringIndex device <> 0 ->
  GetStringDescriptor device (GetSerialNumberStringIndex device)
    = (kIOReturnSuccess, buf) ->
  cstr buf <> "" ->
  defaultEEPROMID device = false \/ cstr buf <> cstr default_serial ->
  serial_tier device = Some (cstr buf).
Proof.
  intros Hidx Hfetch Hne Hdef. unfold SerialDevice.serial_tier.
  apply Z.eqb_neq in Hidx. rewrite Hidx, Hfetch. cbn [negb].
  rewrite Z.eqb_refl. cbn [andb].
  apply (strnlen_positive buf 256) in Hne; [|lia]. rewrite Hne.
  destruct Hdef as [Hdef|Hdef].
  - now rewrite Hdef.
  - destruct (strcmp buf default_serial =? 0) eqn:E.
    + apply strcmp_zero in E. contradiction.
    + now rewrite orb_true_r.
Qed.

Lemma serial_tier_inv (device : IOUSBDevice) (c : OSString) :
  serial_tier device = Some c ->
  exists buf,
    GetSerialNumberStringIndex device <> 0 /\
    GetStringDescriptor device (GetSerialNumberStringIndex device)
      = (kIOReturnSuccess, buf) /\
    c = cstr buf /\ cstr buf <> "" /\
    (defaultEEPROMID device = false \/ cstr buf <> cstr default_serial).
Proof.
  unfold SerialDevice.serial_tier.
  destruct (GetSerialNumberStringIndex device =? 0) eqn:Hidx; cbn [negb];
    [discriminate|].
  destruct (GetStringDescriptor device _) as [ret buf] eqn:Hfetch.
  destruct (ret =? kIOReturnSuccess) eqn:Hret; cbn [andb]; [|discriminate].
  destruct (strnlen buf 256 >? 0) eqn:Hlen; [|discriminate].
  destruct (negb (defaultEEPROMID device)
            || negb (strcmp buf default_serial =? 0)) eqn:Hdef; [|discriminate].
  intros [= <-]. exists buf.
  apply Z.eqb_neq in Hidx. apply Z.eqb_eq in Hret. subst ret.
  apply strnlen_positive in Hlen; [|lia].
  repeat split; try assumption.
  apply orb_true_iff in Hdef as [H|H]; apply negb_true_iff in H.
  - now left.
  - right. intros Heq. apply strcmp_zero in Heq. congruence.
Qed.

Lemma serial_tier_fetch_failed (device : IOUSBDevice) :
  fst (GetStringDescriptor device (GetSerialNumberStringIndex device))
    <> kIOReturnSuccess ->
  serial_tier device = None.
Proof.
  intros Hret. unfold SerialDevice.serial_tier.
  destruct (GetSerialNumberStringIndex device =? 0); cbn [negb]; [reflexivity|].
  destruct (GetStringDescriptor device _) as [ret buf]. simpl in Hret.
  apply Z.eqb_neq in Hret. now rewrite Hret.
Qed.

(** *** The location attempt *)

(** The nine bytes of [locStr] are enough: nothing of the digits is cut. *)
Lemma location_tier_value (device : IOUSBDevice) :
  location_tier device =
    match OSDynamicCast_OSNumber (LocationID device) with
    | Some location => Some (fmt_x (unsigned32BitValue location))
    | None => None
    end.
Proof.
  unfold SerialDevice.location_tier.
  destruct (OSDynamicCast_OSNumber (LocationID device)) as [location|];
    [|reflexivity].
  unfold snprintf, withCString. f_equal.
  rewrite truncate_all by (pose proof (fmt_x_length_le (unsigned32BitValue location));
                           simpl; lia).
  apply cstr_id, fmt_x_no_nul.
Qed.

(** *** The selected string *)

Lemma candidate_well_formed (device : IOUSBDevice) (c : OSString) :
  candidate device = Some c -> c <> "" /\ no_nul c = true.
Proof.
  unfold SerialDevice.candidate.
  destruct (serial_tier device) as [r|] eqn:E.
  - intros [= <-]. apply serial_tier_inv in E as (buf & _ & _ & -> & Hne & _).
    split; [exact Hne | apply cstr_no_nul].
  - rewrite location_tier_value.
    destruct (OSDynamicCast_OSNumber (LocationID device)) as [location|];
      [|discriminate].
    intros [= <-]. split; [|apply fmt_x_no_nul].
    pose proof (fmt_x_length_ge (unsigned32BitValue location)) as H.
    intros Heq. rewrite Heq in H. simpl in H. lia.
Qed.

(** *** The interface number *)

Lemma make_unique_prefix (result : OSString) (n : Z) :
  no_nul result = true ->
  make_unique result n = result ++ cstr (truncate 3 (fmt_x n)).
Proof.
  intros Hr. unfold SerialDevice.make_unique, snprintf, withCString, fmt_s,
    getCStringNoCopy, getLength.
  replace (Z.to_nat (Z.of_nat (String.length result) + 3 + 1 - 1))
    with (String.length result + 3)%nat by lia.
  rewrite (cstr_id result Hr), truncate_app. now apply cstr_app.
Qed.

Lemma make_unique_uint8 (result : OSString) (n : Z) :
  no_nul result = true -> is_uint8 n ->
  make_unique result n = result ++ fmt_x n.
Proof.
  intros Hr Hn. rewrite make_unique_prefix by exact Hr.
  rewrite truncate_all by (pose proof (fmt_x_length_uint8 n Hn); lia).
  now rewrite (cstr_id _ (fmt_x_no_nul n)).
Qed.

Lemma append_not_empty (a b : string) : a <> "" -> a ++ b <> "".
Proof. destruct a; [congruence | discriminate]. Qed.

Lemma fmt_x_differ (a b : Z) :
  is_uint8 a -> is_uint8 b -> a <> b -> fmt_x a <> fmt_x b.
Proof.
  unfold is_uint8. intros Ha Hb Hab H. apply Hab.
  apply fmt_x_inj_uint32 in H; [exact H | lia | lia].
Qed.

(** *** The properties of the specification *)

(** C1, as the code has it: when neither the serial number nor the location
    gives a string, the function returns the literal "unknown" as it is,
    whatever the interface number (nothing is appended on this path), and
    logs one error line. *)
Theorem fallback_returns_unknown (interface : IOUSBInterface) :
  serial_tier (GetDevice interface) = None ->
  location_tier (GetDevice interface) = None ->
  getDeviceNameSuffix_run interface = mkOutcome "unknown" [no_id_message].
Proof.
  intros Hs Hl. unfold SerialDevice.getDeviceNameSuffix_run, SerialDevice.candidate.
  now rewrite Hs, Hl.
Qed.

(** C2, as the code has it: for one device whose serial number or location
    gives a string, two interfaces with different 8-bit interface numbers
    get different suffixes. *)
Theorem interfaces_get_distinct_suffixes
    (device : IOUSBDevice) (n1 n2 : Z) (c : OSString) :
  candidate device = Some c ->
  is_uint8 n1 -> is_uint8 n2 -> n1 <> n2 ->
  getDeviceNameSuffix (mkInterface device n1)
    <> getDeviceNameSuffix (mkInterface device n2).
Proof.
  intros Hc H1 H2 Hneq.
  unfold SerialDevice.getDeviceNameSuffix, SerialDevice.getDeviceNameSuffix_run.
  cbn [GetDevice GetInterfaceNumber]. rewrite Hc. cbn [suffix].
  destruct (candidate_well_formed device c Hc) as [_ Hnul].
  rewrite !make_unique_uint8 by assumption.
  intros Heq. apply append_inv_head in Heq.
  now apply (fmt_x_differ n1 n2).
Qed.

(** C3: for every interface, whatever the device says about itself,
    getDeviceNameSuffix returns a string, and that string is not empty. *)
Theorem suffix_never_empty (interface : IOUSBInterface) :
  exists s : OSString,
    getDeviceNameSuffix interface = s /\ s <> "" /\ 0 < getLength s.
Proof.
  assert (Hne : getDeviceNameSuffix interface <> "").
  { unfold SerialDevice.getDeviceNameSuffix, SerialDevice.getDeviceNameSuffix_run.
    destruct (candidate (GetDevice interface)) as [c|] eqn:Hc; cbn [suffix].
    - destruct (candidate_well_formed _ c Hc) as [Hne Hnul].
      rewrite make_unique_prefix by exact Hnul.
      now apply append_not_empty.
    - discriminate. }
  eexists. split; [reflexivity|]. split; [exact Hne|].
  unfold getLength. destruct (getDeviceNameSuffix interface);
    [congruence | simpl; lia].
Qed.

(** C4: when the vendor and product pair of the device is in the table of
    default identifiers and the serial number read from the device is the
    factory default serial, the serial number gives no string: the string
    selected is the one the location gives, and when the location gives
    none the function returns "unknown". *)
Theorem default_serial_rejected (interface : IOUSBInterface) (buf : string) :
  let device := GetDevice interface in
  In (mk_usb_id (GetVendorID device) (GetProductID device)) ids ->
  GetStringDescriptor device (GetSerialNumberStringIndex device)
    = (kIOReturnSuccess, buf) ->
  cstr buf = cstr default_serial ->
  serial_tier device = None /\
  candidate device = location_tier device /\
  getDeviceNameSuffix interface =
    match location_tier device with
    | Some loc => make_unique loc (GetInterfaceNumber interface)
    | None => "unknown"
    end.
Proof.
  intros device Hin Hfetch Hdefault.
  assert (Hs : serial_tier device = None).
  { destruct (serial_tier device) as [c|] eqn:E; [|reflexivity].
    apply serial_tier_inv in E as (buf' & _ & Hfetch' & _ & _ & Hdef).
    rewrite Hfetch in Hfetch'. injection Hfetch' as <-.
    apply scan_default_ids_In in Hin.
    unfold SerialDevice.defaultEEPROMID in Hdef. fold device in Hdef.
    destruct Hdef as [Hdef|Hdef]; [congruence | contradiction]. }
  split; [exact Hs|].
  unfold SerialDevice.getDeviceNameSuffix, SerialDevice.getDeviceNameSuffix_run,
    SerialDevice.candidate.
  fold device. rewrite Hs. split; [reflexivity|].
  now destruct (location_tier device).
Qed.

(** C5: when the descriptor fetch succeeds with a non-empty string that is
    not a rejected factory default, the string selected is the fetched
    serial exactly, the function returns that serial followed by the
    interface number in lowercase hexadecimal, and the location has no
    part in the result. *)
Theorem serial_number_used (interface : IOUSBInterface) (buf : string) :
  let device := GetDevice interface in
  GetSerialNumberStringIndex device <> 0 ->
  GetStringDescriptor device (GetSerialNumberStringIndex device)
    = (kIOReturnSuccess, buf) ->
  cstr buf <> "" ->
  defaultEEPROMID device = false \/ cstr buf <> cstr default_serial ->
  is_uint8 (GetInterfaceNumber interface) ->
  candidate device = Some (cstr buf) /\
  getDeviceNameSuffix interface = cstr buf ++ fmt_x (GetInterfaceNumber interface) /\
  forall loc : option OSObject,
    getDeviceNameSuffix (mkInterface (with_location device loc)
                                     (GetInterfaceNumber interface))
      = getDeviceNameSuffix interface.
Proof.
  intros device Hidx Hfetch Hne Hdef Hn.
  assert (Hany : forall loc,
    getDeviceNameSuffix (mkInterface (with_location device loc)
                                     (GetInterfaceNumber interface))
      = cstr buf ++ fmt_x (GetInterfaceNumber interface)).
  { intros loc.
    unfold SerialDevice.getDeviceNameSuffix, SerialDevice.getDeviceNameSuffix_run,
      SerialDevice.candidate.
    cbn [GetDevice GetInterfaceNumber].
    rewrite (serial_tier_accepts (with_location device loc) buf)
      by assumption.
    cbn [suffix]. apply make_unique_uint8; [apply cstr_no_nul | exact Hn]. }
  assert (Hself : with_location device (LocationID device) = device)
    by now destruct device.
  assert (Hi : mkInterface device (GetInterfaceNumber interface) = interface)
    by now destruct interface.
  split; [|split].
  - unfold SerialDevice.candidate.
    now rewrite (serial_tier_accepts device buf).
  - rewrite <- (Hany (LocationID device)), Hself, Hi. reflexivity.
  - intros loc. rewrite (Hany loc).
    rewrite <- (Hany (LocationID device)), Hself, Hi. reflexivity.
Qed.

(** C6: for two devices without a usable serial number whose location
    properties are numbers with different 32-bit values, the strings
    selected before the interface number is appended are different: the
    hexadecimal writing of a 32-bit value, without padding, is injective. *)
Theorem locations_get_distinct_candidates
    (d1 d2 : IOUSBDevice) (l1 l2 : OSNumber) :
  serial_tier d1 = None -> serial_tier d2 = None ->
  LocationID d1 = Some (ONumber l1) -> LocationID d2 = Some (ONumber l2) ->
  unsigned32BitValue l1 <> unsigned32BitValue l2 ->
  candidate d1 = Some (fmt_x (unsigned32BitValue l1)) /\
  candidate d2 = Some (fmt_x (unsigned32BitValue l2)) /\
  candidate d1 <> candidate d2.
Proof.
  intros Hs1 Hs2 Hl1 Hl2 Hneq.
  assert (H1 : candidate d1 = Some (fmt_x (unsigned32BitValue l1))).
  { unfold SerialDevice.candidate.
    now rewrite Hs1, location_tier_value, Hl1. }
  assert (H2 : candidate d2 = Some (fmt_x (unsigned32BitValue l2))).
  { unfold SerialDevice.candidate.
    now rewrite Hs2, location_tier_value, Hl2. }
  split; [exact H1|]. split; [exact H2|].
  rewrite H1, H2. intros [= Heq]. apply Hneq.
  apply fmt_x_inj in Heq. unfold unsigned32BitValue in *.
  now rewrite !Z.mod_mod in Heq by lia.
Qed.

(** C7: when the fetch of the serial number descriptor fails, the function
    still returns a string: the serial number gives nothing, the string
    selected is the one the location gives, and the result is that string
    with the interface number appended, or "unknown"; it is never empty. *)
Theorem fetch_failure_falls_through (interface : IOUSBInterface) :
  let device := GetDevice interface in
  fst (GetStringDescriptor device (GetSerialNumberStringIndex device))
    <> kIOReturnSuccess ->
  serial_tier device = None /\
  candidate device = location_tier device /\
  getDeviceNameSuffix interface =
    match location_tier device with
    | Some loc => make_unique loc (GetInterfaceNumber interface)
    | None => "unknown"
    end /\
  getDeviceNameSuffix interface <> "".
Proof.
  intros device Hret.
  pose proof (serial_tier_fetch_failed device Hret) as Hs.
  assert (Hc : candidate device = location_tier device).
  { unfold SerialDevice.candidate. now rewrite Hs. }
  split; [exact Hs|]. split; [exact Hc|].
  unfold SerialDevice.getDeviceNameSuffix, SerialDevice.getDeviceNameSuffix_run.
  fold device. rewrite Hc.
  destruct (location_tier device) as [loc|] eqn:Hl; cbn [suffix].
  - split; [reflexivity|].
    destruct (candidate_well_formed _ _ Hc) as [Hne Hnul].
    rewrite make_unique_prefix by exact Hnul. now apply append_not_empty.
  - split; [reflexivity | discriminate].
Qed.

(** C8, as the code has it: the serial number gives no string whenever the
    fetched string is empty; no whitespace is removed before the test. *)
Theorem empty_serial_skipped (device : IOUSBDevice) :
  cstr (snd (GetStringDescriptor device (GetSerialNumberStringIndex device))) = "" ->
  serial_tier device = None.
Proof.
  intros Hempty.
  destruct (serial_tier device) as [c|] eqn:E; [|reflexivity].
  apply serial_tier_inv in E as (buf & _ & Hfetch & _ & Hne & _).
  rewrite Hfetch in Hempty. simpl in Hempty. contradiction.
Qed.

(** C10: an 8-bit interface number is written with at most two hexadecimal
    digits, so the selected string followed by these digits and the
    terminator fits in the buffer of length + 3 + 1 bytes, and the suffix
    returned is the selected string followed by all the digits. *)
Theorem unique_buffer_large_enough (interface : IOUSBInterface) (c : OSString) :
  let n := GetInterfaceNumber interface in
  is_uint8 n ->
  candidate (GetDevice interface) = Some c ->
  (String.length (fmt_x n) <= 2)%nat /\
  Z.of_nat (String.length (fmt_s (getCStringNoCopy c) ++ fmt_x n)) + 1
    <= getLength c + 3 + 1 /\
  snprintf (getLength c + 3 + 1) (fmt_s (getCStringNoCopy c) ++ fmt_x n)
    = c ++ fmt_x n /\
  getDeviceNameSuffix interface = c ++ fmt_x n.
Proof.
  intros n Hn Hc.
  destruct (candidate_well_formed _ c Hc) as [_ Hnul].
  pose proof (fmt_x_length_uint8 n Hn) as Hlen.
  unfold fmt_s, getCStringNoCopy, getLength. rewrite (cstr_id c Hnul).
  split; [exact Hlen|]. split; [rewrite length_append; lia|]. split.
  - unfold snprintf. apply truncate_all. rewrite length_append. lia.
  - unfold SerialDevice.getDeviceNameSuffix, SerialDevice.getDeviceNameSuffix_run.
    rewrite Hc. cbn [suffix]. now apply make_unique_uint8.
Qed.

End SerialDeviceFacts.

(* ================================================================= *)
(** ** The properties on the devices of the examples *)

Section Examples.

Local Abbreviation defaultEEPROMID := (SerialDevice.defaultEEPROMID spec_default_ids).
Local Abbreviation serial_tier :=
  (SerialDevice.serial_tier spec_default_ids spec_default_serial).
Local Abbreviation candidate :=
  (SerialDevice.candidate spec_default_ids spec_default_serial).
Local Abbreviation getDeviceNameSuffix_run :=
  (SerialDevice.getDeviceNameSuffix_run spec_default_ids spec_default_serial).
Local Abbreviation getDeviceNameSuffix :=
  (SerialDevice.getDeviceNameSuffix spec_default_ids spec_default_serial).
Local Abbreviation location_tier := SerialDevice.location_tier.
Local Abbreviation no_id_message := SerialDevice.no_id_message.

(** The three examples of the specification, run on the model. *)
Example unprogrammed_part_named_by_location :
  getDeviceNameSuffix (mkInterface dev_unprogrammed 0) = "1a2000000".
Proof. reflexivity. Qed.

Example programmed_part_named_by_serial :
  getDeviceNameSuffix (mkInterface dev_programmed 1) = "A1B2C31".
Proof. reflexivity. Qed.

Example bare_part_unknown :
  getDeviceNameSuffix_run (mkInterface dev_bare 0)
    = mkOutcome "unknown" [no_id_message].
Proof. reflexivity. Qed.

(** On a device with neither serial number nor location, interface 0 does
    not get "unknown0". *)
Lemma fallback_without_index :
  ~ (serial_tier dev_bare = None ->
     location_tier dev_bare = None ->
     getDeviceNameSuffix (mkInterface dev_bare 0) = "unknown0").
Proof. intros H. specialize (H eq_refl eq_refl). discriminate H. Qed.

Lemma fallback_returns_unknown_witness :
  serial_tier dev_bare = None /\
  location_tier dev_bare = None /\
  getDeviceNameSuffix_run (mkInterface dev_bare 0)
    = mkOutcome "unknown" [no_id_message].
Proof.
  split; [reflexivity|]. split; [reflexivity|].
  apply (fallback_returns_unknown spec_default_ids spec_default_serial
           (mkInterface dev_bare 0)); reflexivity.
Defined.

(** On that device, interfaces 0 and 1 get the same suffix. *)
Lemma fallback_same_for_two_interfaces :
  ~ (0 <> 1 ->
     getDeviceNameSuffix (mkInterface dev_bare 0)
       <> getDeviceNameSuffix (mkInterface dev_bare 1)).
Proof. intros H. apply H; [discriminate | reflexivity]. Qed.

Lemma interfaces_get_distinct_suffixes_witness :
  candidate dev_programmed = Some "A1B2C3" /\
  getDeviceNameSuffix (mkInterface dev_programmed 0)
    <> getDeviceNameSuffix (mkInterface dev_programmed 1).
Proof.
  split; [reflexivity|].
  apply (interfaces_get_distinct_suffixes spec_default_ids spec_default_serial
           dev_programmed 0 1 "A1B2C3");
    [reflexivity | unfold is_uint8; lia | unfold is_uint8; lia | discriminate].
Defined.

Lemma default_serial_rejected_witness :
  serial_tier dev_unprogrammed = None /\
  candidate dev_unprogrammed = Some "1a200000" /\
  getDeviceNameSuffix (mkInterface dev_unprogrammed 0) = "1a2000000".
Proof.
  destruct (default_serial_rejected spec_default_ids spec_default_serial
              (mkInterface dev_unprogrammed 0) (buffer_with "0001"))
    as (Hs & Hc & Hr);
    [left; reflexivity | reflexivity | reflexivity |].
  split; [exact Hs|]. split; [exact Hc | exact Hr].
Defined.

Lemma serial_number_used_witness :
  candidate dev_programmed = Some "A1B2C3" /\
  getDeviceNameSuffix (mkInterface dev_programmed 1) = "A1B2C31" /\
  getDeviceNameSuffix (mkInterface (with_location dev_programmed None) 1)
    = getDeviceNameSuffix (mkInterface dev_programmed 1).
Proof.
  destruct (serial_number_used spec_default_ids spec_default_serial
              (mkInterface dev_programmed 1) (buffer_with "A1B2C3"))
    as (Hc & Hr & Hloc);
    [discriminate | reflexivity | discriminate | left; reflexivity
    | unfold is_uint8; simpl; lia |].
  split; [exact Hc|]. split; [exact Hr|]. exact (Hloc None).
Defined.

Lemma locations_get_distinct_candidates_witness :
  candidate dev_unreadable
    <> candidate (with_location dev_unreadable
                    (Some (ONumber (mkOSNumber 0x14200000)))).
Proof.
  apply (locations_get_distinct_candidates spec_default_ids spec_default_serial
           dev_unreadable
           (with_location dev_unreadable (Some (ONumber (mkOSNumber 0x14200000))))
           (mkOSNumber 0x14100000) (mkOSNumber 0x14200000));
    [reflexivity | reflexivity | reflexivity | reflexivity | discriminate].
Defined.

Lemma fetch_failure_falls_through_witness :
  serial_tier dev_unreadable = None /\
  getDeviceNameSuffix (mkInterface dev_unreadable 2) = "141000002".
Proof.
  destruct (fetch_failure_falls_through spec_default_ids spec_default_serial
              (mkInterface dev_unreadable 2))
    as (Hs & _ & Hr & _); [discriminate|].
  split; [exact Hs | exact Hr].
Defined.

(** A serial number made of one space is empty after trimming, and yet it
    is the string selected. *)
Lemma blank_serial_becomes_candidate :
  ~ (spec_empty_after_trimming
       (cstr (snd (GetStringDescriptor dev_blank
                     (GetSerialNumberStringIndex dev_blank)))) = true ->
     serial_tier dev_blank = None).
Proof. intros H. specialize (H eq_refl). discriminate H. Qed.

Lemma empty_serial_skipped_witness :
  cstr (snd (GetStringDescriptor dev_empty_serial
               (GetSerialNumberStringIndex dev_empty_serial))) = "" /\
  serial_tier dev_empty_serial = None.
Proof.
  split; [reflexivity|].
  apply (empty_serial_skipped spec_default_ids spec_default_serial
           dev_empty_serial); reflexivity.
Defined.

Lemma unique_buffer_large_enough_witness :
  (String.length (fmt_x 255) <= 2)%nat /\
  getDeviceNameSuffix (mkInterface dev_programmed 255) = "A1B2C3ff".
Proof.
  destruct (unique_buffer_large_enough spec_default_ids spec_default_serial
              (mkInterface dev_programmed 255) "A1B2C3")
    as (Hlen & _ & _ & Hr);
    [unfold is_uint8; simpl; lia | reflexivity |].
  split; [exact Hlen | exact Hr].
Defined.

End Examples.

(* ================================================================= *)
(** ** Facts about init and free *)

Section InitFacts.
Import LibcFacts.

Variable ids : list usb_id.
Variable default_serial : string.

Local Abbreviation getDeviceNameSuffix_run :=
  (SerialDevice.getDeviceNameSuffix_run ids default_serial).
Local Abbreviation getDeviceNameSuffix :=
  (SerialDevice.getDeviceNameSuffix ids default_serial).
Local Abbreviation configure_name := (SerialDevice.configure_name ids default_serial).
Local Abbreviation getDeviceNameSuffix_calls :=
  (SerialDevice.getDeviceNameSuffix_calls ids default_serial).
Local Abbreviation candidate := (SerialDevice.candidate ids default_serial).
Local Abbreviation no_id_message := SerialDevice.no_id_message.
Local Abbreviation init := (SerialDevice.init ids default_serial).
Local Abbreviation free := SerialDevice.free.

(** *** The name given to the stream *)

Lemma getDeviceNameSuffix_no_nul (interface : IOUSBInterface) :
  no_nul (getDeviceNameSuffix interface) = true.
Proof.
  unfold SerialDevice.getDeviceNameSuffix, SerialDevice.getDeviceNameSuffix_run.
  destruct (SerialDevice.candidate ids default_serial (GetDevice interface));
    cbn [suffix]; [|reflexivity].
  unfold SerialDevice.make_unique, withCString. apply cstr_no_nul.
Qed.

(** The buffer [dashSuffix] holds the dash and the whole suffix. *)
Lemma dash_suffix_exact (s : OSString) :
  no_nul s = true ->
  withCString (snprintf (getLength s + 1 + 1) ("-" ++ fmt_s (getCStringNoCopy s)))
    = "-" ++ s.
Proof.
  intros Hs. unfold withCString, snprintf, fmt_s, getCStringNoCopy, getLength.
  rewrite (cstr_id s Hs).
  rewrite truncate_all by (simpl; lia).
  apply cstr_id. simpl. exact Hs.
Qed.

Lemma configure_name_calls (s : Z) (interface : IOUSBInterface) :
  configure_name s interface =
    (getDeviceNameSuffix_calls interface
     ++ [stream_setProperty s kIOTTYBaseNameKey "CP210x";
         stream_setProperty s kIOTTYSuffixKey
           ("-" ++ getDeviceNameSuffix interface)%string;
         string_release (getDeviceNameSuffix interface)])%list.
Proof.
  unfold SerialDevice.configure_name, SerialDevice.setProperty.
  now rewrite dash_suffix_exact by apply getDeviceNameSuffix_no_nul.
Qed.

(** *** Counting releases *)

Lemma release_count_app (s : Z) (a b : list call) :
  release_count s (a ++ b)%list = (release_count s a + release_count s b)%nat.
Proof. unfold release_count. now rewrite filter_app, length_app. Qed.

(** The error lines among these calls are those of the run of the function. *)
Lemma getDeviceNameSuffix_calls_logged (interface : IOUSBInterface) :
  getDeviceNameSuffix_calls interface =
    (map log_err (logged (getDeviceNameSuffix_run interface))
     ++ match candidate (GetDevice interface) with
        | Some result => [string_release result]
        | None => []
        end)%list.
Proof.
  unfold SerialDevice.getDeviceNameSuffix_calls,
    SerialDevice.getDeviceNameSuffix_run.
  now destruct (candidate (GetDevice interface)).
Qed.

Lemma getDeviceNameSuffix_calls_no_stream (f : call -> bool)
    (interface : IOUSBInterface) :
  (forall m, f (log_err m) = false) ->
  (forall str, f (string_release str) = false) ->
  existsb f (getDeviceNameSuffix_calls interface) = false.
Proof.
  intros Hlog Hrel. unfold SerialDevice.getDeviceNameSuffix_calls.
  destruct (candidate (GetDevice interface));
    simpl; [now rewrite Hrel | now rewrite Hlog].
Qed.

Lemma configure_name_no_release (s s' : Z) (interface : IOUSBInterface) :
  existsb (is_release s) (configure_name s' interface) = false.
Proof.
  rewrite configure_name_calls, existsb_app.
  rewrite getDeviceNameSuffix_calls_no_stream by reflexivity. reflexivity.
Qed.

Lemma no_release_count (s : Z) (l : list call) :
  existsb (is_release s) l = false -> release_count s l = 0%nat.
Proof.
  unfold release_count. induction l as [|c l IH]; simpl; [reflexivity|].
  destruct (is_release s c); simpl; [discriminate | exact IH].
Qed.

Lemma no_use_after_release_app (s : Z) (a b : list call) :
  existsb (is_release s) a = false ->
  no_use_after_release s (a ++ b)%list = no_use_after_release s b.
Proof.
  induction a as [|c a IH]; simpl; [reflexivity|].
  destruct (is_release s c); simpl; [discriminate | exact IH].
Qed.

(** *** What init and free do *)

Ltac init_cases env :=
  destruct env as [sup new ini att];
  unfold SerialDevice.init, SerialDevice.finish;
  cbn [super_init_ok new_stream_result stream_init_ok stream_attach_ok];
  destruct sup; [destruct new as [s0|]; [destruct ini; [destruct att|]|]|];
  cbn [negb returned calls object _stream].

(** X1: when the four calls that can fail succeed, init returns true, keeps
    the stream in its field, and has made these calls in this order: the
    initialisation and the attachment of the stream; the call that
    getDeviceNameSuffix makes, which is the release of the string it had
    selected from the serial number or the location, or else the error
    line; the base name "CP210x"; the suffix property holding a dash
    followed by the whole of what getDeviceNameSuffix returned; the release
    of that returned string; and last the registration. *)
Theorem init_success (env : answers) (this : SerialDeviceObject)
    (provider : Z) (interface : IOUSBInterface) (s : Z) :
  super_init_ok env = true ->
  new_stream_result env = Some s ->
  stream_init_ok env = true ->
  stream_attach_ok env = true ->
  init env this provider interface =
    mkInitResult true (mkObject (Some s))
      ([super_init; new_stream; stream_init s 0 0; stream_attach s provider]
       ++ match candidate (GetDevice interface) with
          | Some result => [string_release result]
          | None => [log_err no_id_message]
          end
       ++ [stream_setProperty s kIOTTYBaseNameKey "CP210x";
           stream_setProperty s kIOTTYSuffixKey
             ("-" ++ getDeviceNameSuffix interface)%string;
           string_release (getDeviceNameSuffix interface);
           stream_registerService s])%list.
Proof.
  intros Hsup Hnew Hini Hatt.
  unfold SerialDevice.init, SerialDevice.finish.
  rewrite Hsup, Hnew, Hini, Hatt. cbn [negb].
  rewrite configure_name_calls. f_equal.
  unfold SerialDevice.getDeviceNameSuffix_calls.
  cbn [app]. now rewrite <- app_assoc.
Qed.

(** X2: init returns true exactly when the four calls that can fail all
    succeed, and the stream is registered exactly when init returns true. *)
Theorem init_true_iff_all_succeed (env : answers) (this : SerialDeviceObject)
    (provider : Z) (interface : IOUSBInterface) :
  let r := init env this provider interface in
  (returned r = true <->
     super_init_ok env = true /\ new_stream_result env <> None /\
     stream_init_ok env = true /\ stream_attach_ok env = true) /\
  (returned r = true <-> exists s, In (stream_registerService s) (calls r)).
Proof.
  init_cases env.
  - split; split; intros _; try reflexivity.
    + repeat split; discriminate.
    + exists s0. apply in_or_app. right. now left.
  - split; split; try discriminate.
    + intros (_ & _ & _ & H). discriminate H.
    + intros [s H]. cbn in H. exfalso.
      repeat (destruct H as [H|H]; [discriminate H|]). exact H.
  - split; split; try discriminate.
    + intros (_ & _ & H & _). discriminate H.
    + intros [s H]. cbn in H. exfalso.
      repeat (destruct H as [H|H]; [discriminate H|]). exact H.
  - split; split; try discriminate.
    + intros (_ & H & _). now contradiction H.
    + intros [s H]. cbn in H. exfalso.
      repeat (destruct H as [H|H]; [discriminate H|]). exact H.
  - split; split; try discriminate.
    + intros (H & _). discriminate H.
    + intros [s H]. cbn in H. exfalso.
      repeat (destruct H as [H|H]; [discriminate H|]). exact H.
Qed.

(** X3: when init returns false, it has set no property, registered
    nothing, read no name and logged nothing; if super::init() had
    succeeded the field is NULL, and if a stream had been created, its
    release is the last call made and the only release. *)
Theorem init_failure_releases_stream (env : answers) (this : SerialDeviceObject)
    (provider : Z) (interface : IOUSBInterface) :
  let r := init env this provider interface in
  returned r = false ->
  forallb (fun c => negb (names_or_publishes c)) (calls r) = true /\
  (super_init_ok env = true -> _stream (object r) = None) /\
  (forall s, super_init_ok env = true -> new_stream_result env = Some s ->
     exists before, calls r = (before ++ [stream_release s])%list /\
                    existsb (is_release s) before = false).
Proof.
  init_cases env; intros Hr; try discriminate Hr.
  - split; [reflexivity|]. split; [reflexivity|].
    intros s _ [= <-]. eexists. split; reflexivity.
  - split; [reflexivity|]. split; [reflexivity|].
    intros s _ [= <-]. eexists. split; reflexivity.
  - split; [reflexivity|]. split; [reflexivity|]. intros s _ H. discriminate H.
  - split; [reflexivity|]. split; intros; discriminate.
Qed.

(** X4: on a new object (field NULL), whatever the four calls answer, init
    followed by free releases the stream that was created exactly once and
    no other stream, makes no call on a stream after its release, and ends
    with super::free(). *)
Theorem init_then_free_releases_once (env : answers) (this : SerialDeviceObject)
    (provider : Z) (interface : IOUSBInterface) (s : Z) :
  _stream this = None ->
  let r := init env this provider interface in
  let all_calls := (calls r ++ free (object r))%list in
  release_count s all_calls =
    (if super_init_ok env
     then match new_stream_result env with
          | Some s' => if s' =? s then 1%nat else 0%nat
          | None => 0%nat
          end
     else 0%nat) /\
  no_use_after_release s all_calls = true /\
  exists before, all_calls = (before ++ [super_free])%list.
Proof.
  intros Hthis. init_cases env; unfold SerialDevice.free; cbn [_stream].
  - (* every call succeeds: the release is that of free *)
    match goal with
    | |- context [(?l ++ [stream_release s0; super_free])%list] =>
        assert (Hn : existsb (is_release s) l = false)
          by (rewrite !existsb_app; now rewrite configure_name_no_release);
        set (made := l) in *
    end.
    split; [|split].
    + rewrite release_count_app, (no_release_count s made Hn).
      unfold release_count. cbn. now destruct (s0 =? s).
    + rewrite no_use_after_release_app by exact Hn.
      cbn. now destruct (s0 =? s).
    + exists (made ++ [stream_release s0])%list. now rewrite <- app_assoc.
  - (* the attachment fails *)
    split; [|split].
    + unfold release_count. cbn. now destruct (s0 =? s).
    + cbn. now destruct (s0 =? s).
    + eexists (_ :: _ :: _ :: _ :: [_])%list. reflexivity.
  - (* the initialisation of the stream fails *)
    split; [|split].
    + unfold release_count. cbn. now destruct (s0 =? s).
    + cbn. now destruct (s0 =? s).
    + eexists (_ :: _ :: _ :: [_])%list. reflexivity.
  - (* no stream is created *)
    split; [reflexivity|]. split; [reflexivity|].
    now exists [super_init; new_stream].
  - (* super::init() fails *)
    rewrite Hthis. split; [reflexivity|]. split; [reflexivity|].
    now exists [super_init].
Qed.

End InitFacts.

(* ================================================================= *)
(** ** More facts about the suffix *)

Section SuffixFacts.
Import LibcFacts.

Variable ids : list usb_id.
Variable default_serial : string.

Local Abbreviation defaultEEPROMID := (SerialDevice.defaultEEPROMID ids).
Local Abbreviation serial_tier := (SerialDevice.serial_tier ids default_serial).
Local Abbreviation candidate := (SerialDevice.candidate ids default_serial).
Local Abbreviation getDeviceNameSuffix_run :=
  (SerialDevice.getDeviceNameSuffix_run ids default_serial).
Local Abbreviation getDeviceNameSuffix :=
  (SerialDevice.getDeviceNameSuffix ids default_serial).
Local Abbreviation no_id_message := SerialDevice.no_id_message.

(** *** Strings cut at the same distance from their end *)

Lemma append_inj_same_length (a b x y : string) :
  String.length x = String.length y -> a ++ x = b ++ y -> a = b /\ x = y.
Proof.
  revert b. induction a as [|c a IH]; intros [|c' b] Hlen H; simpl in H.
  - now split.
  - exfalso. apply (f_equal String.length) in H. simpl in H.
    rewrite length_append in H. lia.
  - exfalso. apply (f_equal String.length) in H. simpl in H.
    rewrite length_append in H. lia.
  - injection H as -> H. destruct (IH b Hlen H) as [-> ->]. now split.
Qed.

(** *** The digits of an interface number *)

Lemma hex_loop_S (fuel : nat) (v : Z) (acc : string) :
  hex_loop (S fuel) v acc =
    if v / 16 =? 0 then String (hex_digit (v mod 16)) acc
    else hex_loop fuel (v / 16) (String (hex_digit (v mod 16)) acc).
Proof. reflexivity. Qed.

Lemma fmt_x_last_digit (n : Z) :
  exists front d, 0 <= d < 16 /\ fmt_x n = front ++ String (hex_digit d) "".
Proof.
  unfold fmt_x. set (v := n mod 2 ^ 32).
  assert (Hd : 0 <= v mod 16 < 16) by (apply Z.mod_pos_bound; lia).
  rewrite (hex_loop_S 6). destruct (v / 16 =? 0).
  - exists "", (v mod 16). now split.
  - rewrite hex_loop_acc. exists (hex_loop 6 (v / 16) ""), (v mod 16). now split.
Qed.

Lemma hex_digit_not_n (d : Z) : 0 <= d < 16 -> hex_digit d <> "n"%char.
Proof.
  intros Hd H. apply (f_equal hex_val) in H.
  rewrite hex_digit_val in H by exact Hd.
  change (hex_val "n") with 23 in H. lia.
Qed.

Lemma fmt_x_length_one (n : Z) :
  0 <= n < 16 -> String.length (fmt_x n) = 1%nat.
Proof.
  intros Hn. unfold fmt_x. rewrite Z.mod_small by lia.
  rewrite (hex_loop_S 6). now rewrite Z.div_small by lia.
Qed.

Lemma fmt_x_length_two (n : Z) :
  16 <= n < 256 -> String.length (fmt_x n) = 2%nat.
Proof.
  intros Hn.
  assert (Hle : (String.length (fmt_x n) <= 2)%nat)
    by (apply fmt_x_length_uint8; unfold is_uint8; lia).
  assert (Hge : (2 <= String.length (fmt_x n))%nat).
  { unfold fmt_x. rewrite Z.mod_small by lia. rewrite (hex_loop_S 6).
    destruct (n / 16 =? 0) eqn:E.
    - apply Z.eqb_eq in E. pose proof (Z.div_mod n 16).
      pose proof (Z.mod_pos_bound n 16). lia.
    - pose proof (hex_loop_length_ge 6 (n / 16)
                    (String (hex_digit (n mod 16)) "")) as H.
      cbn [String.length Nat.add] in H. lia. }
  lia.
Qed.

Lemma hex_digit_is_hex (d : Z) : 0 <= d < 16 -> is_hex_digit (hex_digit d) = true.
Proof.
  intros Hd. unfold is_hex_digit, hex_digit.
  destruct (d <? 10) eqn:E; rewrite N_ascii_embedding by lia.
  - apply Z.ltb_lt in E. apply orb_true_iff. left.
    apply andb_true_iff. split; apply N.leb_le; lia.
  - apply Z.ltb_ge in E. apply orb_true_iff. right.
    apply andb_true_iff. split; apply N.leb_le; lia.
Qed.

Lemma hex_loop_all_hex (fuel : nat) : forall v acc,
  all_hex_digits acc = true -> all_hex_digits (hex_loop fuel v acc) = true.
Proof.
  assert (Hd : forall v acc, all_hex_digits acc = true ->
                 all_hex_digits (String (hex_digit (v mod 16)) acc) = true).
  { intros v acc H. simpl. rewrite hex_digit_is_hex, H; [reflexivity|].
    apply Z.mod_pos_bound. lia. }
  induction fuel as [|fuel IH]; intros v acc H; cbn [hex_loop].
  - now apply Hd.
  - destruct (v / 16 =? 0); [now apply Hd|]. apply IH. now apply Hd.
Qed.

Lemma all_hex_digits_app (a b : string) :
  all_hex_digits (a ++ b) = all_hex_digits a && all_hex_digits b.
Proof.
  induction a as [|c a IH]; simpl; [reflexivity|].
  now rewrite IH, andb_assoc.
Qed.

(** *** What the suffix tells *)

(** X5: for an 8-bit interface number, the suffix is "unknown" exactly when
    neither the serial number nor the location gave a string, and exactly
    when the error line was logged: a name made from a serial number or a
    location is never "unknown", since it ends with a hexadecimal digit. *)
Theorem unknown_only_from_fallback (interface : IOUSBInterface) :
  is_uint8 (GetInterfaceNumber interface) ->
  (getDeviceNameSuffix interface = "unknown"
     <-> candidate (GetDevice interface) = None) /\
  (getDeviceNameSuffix interface = "unknown"
     <-> logged (getDeviceNameSuffix_run interface) = [no_id_message]).
Proof.
  intros Hn.
  unfold SerialDevice.getDeviceNameSuffix, SerialDevice.getDeviceNameSuffix_run.
  destruct (candidate (GetDevice interface)) as [c|] eqn:Hc; cbn [suffix logged].
  - destruct (candidate_well_formed ids default_serial _ c Hc) as [_ Hnul].
    rewrite make_unique_uint8 by assumption.
    assert (Hno : c ++ fmt_x (GetInterfaceNumber interface) <> "unknown").
    { intros H.
      destruct (fmt_x_last_digit (GetInterfaceNumber interface))
        as (front & d & Hd & Hf).
      rewrite Hf, <- append_assoc in H.
      change "unknown" with ("unknow" ++ "n") in H.
      apply append_inj_same_length in H; [|reflexivity].
      destruct H as [_ H]. injection H as H.
      now apply (hex_digit_not_n d). }
    split; split; intros H; try discriminate H; contradiction.
  - split; split; reflexivity.
Qed.

(** X6: take two interfaces, of any two devices, that are named from a
    serial number or a location, with 8-bit interface numbers that are both
    below 16 or both from 16 up (the same number of digits). If they get the
    same suffix, the strings selected for the two devices are the same and so
    are the interface numbers. *)
Theorem same_suffix_same_device_and_interface
    (i1 i2 : IOUSBInterface) (c1 c2 : OSString) :
  candidate (GetDevice i1) = Some c1 ->
  candidate (GetDevice i2) = Some c2 ->
  is_uint8 (GetInterfaceNumber i1) ->
  is_uint8 (GetInterfaceNumber i2) ->
  (GetInterfaceNumber i1 < 16 <-> GetInterfaceNumber i2 < 16) ->
  getDeviceNameSuffix i1 = getDeviceNameSuffix i2 ->
  c1 = c2 /\ GetInterfaceNumber i1 = GetInterfaceNumber i2.
Proof.
  intros Hc1 Hc2 Hn1 Hn2 Hdigits.
  unfold SerialDevice.getDeviceNameSuffix, SerialDevice.getDeviceNameSuffix_run.
  rewrite Hc1, Hc2. cbn [suffix].
  destruct (candidate_well_formed ids default_serial _ c1 Hc1) as [_ Hnul1].
  destruct (candidate_well_formed ids default_serial _ c2 Hc2) as [_ Hnul2].
  rewrite !make_unique_uint8 by assumption.
  intros H. unfold is_uint8 in Hn1, Hn2.
  assert (Hlen : String.length (fmt_x (GetInterfaceNumber i1))
                 = String.length (fmt_x (GetInterfaceNumber i2))).
  { destruct (Z.lt_ge_cases (GetInterfaceNumber i1) 16) as [Hlt|Hge].
    - rewrite !fmt_x_length_one; [reflexivity | |]; lia.
    - rewrite !fmt_x_length_two; [reflexivity | |]; lia. }
  destruct (append_inj_same_length _ _ _ _ Hlen H) as [Hc Hx].
  split; [exact Hc|].
  apply fmt_x_inj_uint32 in Hx; [exact Hx | lia | lia].
Qed.

(** X7: the scan of the table finds default identifiers exactly when one
    entry of the table has both the vendor and the product of the device;
    a vendor found in one entry and a product found in another do not
    count, and neither the order of the table nor repeated entries matter. *)
Theorem default_ids_found_iff_entry (device : IOUSBDevice) :
  defaultEEPROMID device = true
    <-> In (mk_usb_id (GetVendorID device) (GetProductID device)) ids.
Proof. unfold SerialDevice.defaultEEPROMID. apply scan_default_ids_In. Qed.

(** X8: when the device is named from its location (no usable serial
    number, a number for location property) and the interface number is an
    8-bit value, the suffix is the digits of the 32-bit location followed by
    those of the interface number: lowercase hexadecimal digits only,
    between 2 and 10 of them. *)
Theorem location_suffix_shape (interface : IOUSBInterface) (l : OSNumber) :
  let n := GetInterfaceNumber interface in
  serial_tier (GetDevice interface) = None ->
  LocationID (GetDevice interface) = Some (ONumber l) ->
  is_uint8 n ->
  getDeviceNameSuffix interface = fmt_x (unsigned32BitValue l) ++ fmt_x n /\
  all_hex_digits (getDeviceNameSuffix interface) = true /\
  (2 <= String.length (getDeviceNameSuffix interface) <= 10)%nat.
Proof.
  intros n Hs Hl Hn.
  assert (Hr : getDeviceNameSuffix interface
               = fmt_x (unsigned32BitValue l) ++ fmt_x n).
  { unfold SerialDevice.getDeviceNameSuffix, SerialDevice.getDeviceNameSuffix_run,
      SerialDevice.candidate.
    rewrite Hs, location_tier_value, Hl. cbn [OSDynamicCast_OSNumber suffix].
    apply make_unique_uint8; [apply fmt_x_no_nul | exact Hn]. }
  rewrite Hr. split; [reflexivity|]. split.
  - rewrite all_hex_digits_app. unfold fmt_x.
    now rewrite !hex_loop_all_hex.
  - rewrite length_append.
    pose proof (fmt_x_length_le (unsigned32BitValue l)).
    pose proof (fmt_x_length_ge (unsigned32BitValue l)).
    pose proof (fmt_x_length_ge n).
    pose proof (fmt_x_length_uint8 n Hn). lia.
Qed.

End SuffixFacts.

(* ================================================================= *)
(** ** These facts on the devices of the examples *)

Section MoreExamples.

Local Abbreviation candidate :=
  (SerialDevice.candidate spec_default_ids spec_default_serial).
Local Abbreviation serial_tier :=
  (SerialDevice.serial_tier spec_default_ids spec_default_serial).
Local Abbreviation getDeviceNameSuffix_run :=
  (SerialDevice.getDeviceNameSuffix_run spec_default_ids spec_default_serial).
Local Abbreviation getDeviceNameSuffix :=
  (SerialDevice.getDeviceNameSuffix spec_default_ids spec_default_serial).
Local Abbreviation init := (SerialDevice.init spec_default_ids spec_default_serial).
Local Abbreviation free := SerialDevice.free.

Lemma init_success_witness :
  init (all_succeed 4096) fresh_object 77 (mkInterface dev_unprogrammed 0) =
    mkInitResult true (mkObject (Some 4096))
      [super_init; new_stream; stream_init 4096 0 0; stream_attach 4096 77;
       string_release "1a200000";
       stream_setProperty 4096 kIOTTYBaseNameKey "CP210x";
       stream_setProperty 4096 kIOTTYSuffixKey "-1a2000000";
       string_release "1a2000000"; stream_registerService 4096].
Proof.
  exact (init_success spec_default_ids spec_default_serial
           (all_succeed 4096) fresh_object 77 (mkInterface dev_unprogrammed 0)
           4096 eq_refl eq_refl eq_refl eq_refl).
Defined.

Lemma init_failure_releases_stream_witness :
  returned (init (attach_fails 4096) fresh_object 77 (mkInterface dev_bare 0))
    = false /\
  _stream (object (init (attach_fails 4096) fresh_object 77
                        (mkInterface dev_bare 0))) = None.
Proof.
  split; [reflexivity|].
  destruct (init_failure_releases_stream spec_default_ids spec_default_serial
              (attach_fails 4096) fresh_object 77 (mkInterface dev_bare 0))
    as (_ & Hnull & _); [reflexivity|].
  apply Hnull. reflexivity.
Defined.

Lemma init_then_free_releases_once_witness :
  release_count 4096
    (calls (init (attach_fails 4096) fresh_object 77 (mkInterface dev_bare 0))
     ++ free (object (init (attach_fails 4096) fresh_object 77
                           (mkInterface dev_bare 0))))%list = 1%nat.
Proof.
  destruct (init_then_free_releases_once spec_default_ids spec_default_serial
              (attach_fails 4096) fresh_object 77 (mkInterface dev_bare 0) 4096)
    as (Hcount & _); [reflexivity|].
  exact Hcount.
Defined.

Lemma unknown_only_from_fallback_witness :
  getDeviceNameSuffix (mkInterface dev_bare 0) = "unknown"
    <-> candidate dev_bare = None.
Proof.
  destruct (unknown_only_from_fallback spec_default_ids spec_default_serial
              (mkInterface dev_bare 0)) as (H & _);
    [unfold is_uint8; simpl; lia|].
  exact H.
Defined.

Lemma same_suffix_same_device_and_interface_witness :
  getDeviceNameSuffix (mkInterface dev_programmed 1)
    = getDeviceNameSuffix (mkInterface dev_programmed_alt 1) /\
  candidate dev_programmed = candidate dev_programmed_alt.
Proof.
  split; [reflexivity|].
  destruct (same_suffix_same_device_and_interface
              spec_default_ids spec_default_serial
              (mkInterface dev_programmed 1) (mkInterface dev_programmed_alt 1)
              "A1B2C3" "A1B2C3") as (Hc & _);
    [reflexivity | reflexivity | unfold is_uint8; simpl; lia
    | unfold is_uint8; simpl; lia | simpl; split; intros; lia | reflexivity |].
  exact (f_equal Some Hc).
Defined.

(** Without the condition on the digits of the interface numbers, two
    devices at different locations can get the same suffix: location 0x1a1
    with interface 0, location 0x1a with interface 16. *)
Example suffixes_meet_across_digit_counts :
  candidate dev_at_1a1 <> candidate dev_at_1a /\
  getDeviceNameSuffix (mkInterface dev_at_1a1 0)
    = getDeviceNameSuffix (mkInterface dev_at_1a 16).
Proof. split; [discriminate | reflexivity]. Qed.

Lemma location_suffix_shape_witness :
  getDeviceNameSuffix (mkInterface dev_unreadable 2) = "141000002" /\
  all_hex_digits (getDeviceNameSuffix (mkInterface dev_unreadable 2)) = true.
Proof.
  destruct (location_suffix_shape spec_default_ids spec_default_serial
              (mkInterface dev_unreadable 2) (mkOSNumber 0x14100000))
    as (Hr & Hhex & _);
    [reflexivity | reflexivity | unfold is_uint8; simpl; lia |].
  split; [exact Hr | exact Hhex].
Defined.

End MoreExamples.
